(** * Voicera frontend: the proxy route handlers

    A shallow embedding of the three Next.js API routes

      - [app/api/v1/members/delete-member/route.ts]  (POST)
      - [app/api/v1/users/me/route.ts]               (GET)
      - [app/api/v1/users/[email]/route.ts]          (GET)

    Each handler is an [async] function whose body is one [try]/[catch]: it
    reads the inbound request, issues one [fetch] to the backend, parses the
    reply as JSON and relays it.  The handlers are embedded in a small monad
    [Js] that threads the two effects the code has: the outbound network
    traffic (recorded, with the backend's reply, in [wire]) and the
    diagnostic output of [console.error]; a JavaScript exception is the
    [Throw] completion. *)

From Stdlib Require Import ZArith Ascii String List SpecFloat.
From stdpp Require Import base strings gmap.

Import ListNotations.
Set Warnings "-register-all".
Local Open Scope Z_scope.
Local Open Scope string_scope.

(** ** JSON values and message bodies *)

(** The handlers never look inside the JSON they relay; it is the value
    [JSON.parse] produces and [NextResponse.json] is given.  A number is
    the IEEE 754 value (a double) the parser rounds its text to; it can be
    an infinity. *)
Inductive Json : Type :=
  | JNull
  | JBool (b : bool)
  | JNumber (x : spec_float)
  | JString (s : string)
  | JArray (items : list Json)
  | JObject (members : list (string * Json)).

(** A body that arrives, by what [JSON.parse] makes of its text: the value
    the text parses to, or, for a text the parser rejects (the empty body of
    a message that carries none is one), the message of the [SyntaxError]
    it throws.  The text itself is not kept: several texts parse to one
    value. *)
Inductive Body : Type :=
  | JsonText (j : Json)
  | NotJson (report : string).

(** A text that is sent: [JSON.stringify(data)], kept as the value it is
    made from.  It need not be the text [data] was parsed from. *)
Inductive Text : Type :=
  | JSON_stringify (data : Json).

(** ** Headers *)

Definition ascii_to_lower (c : ascii) : ascii :=
  let n := N_of_ascii c in
  if ((65 <=? n) && (n <=? 90))%N then ascii_of_N (n + 32) else c.

Fixpoint to_lower (s : string) : string :=
  match s with
  | EmptyString => EmptyString
  | String c rest => String (ascii_to_lower c) (to_lower rest)
  end.

(** The [Headers] object of the inbound request stores its entries under
    lower-cased names; [get] lower-cases the name it is asked for and
    answers [null] ([None]) when there is no entry. *)
Record Headers : Type := { entries : gmap string string }.

Definition Headers_get (h : Headers) (name : string) : option string :=
  entries h !! to_lower name.

(** ** Requests and responses *)

Record NextRequest : Type := {
  req_headers : Headers;
  req_body : Body
}.

(** The route parameters of [/api/v1/users/[email]]. *)
Record Params : Type := { email : string }.

(** The second argument of [fetch]; [headers] is the object literal. *)
Record RequestInit : Type := {
  method : string;
  headers : gmap string string;
  body : option Text
}.

(** One call of [fetch]. *)
Record FetchCall : Type := {
  url : string;
  init : RequestInit
}.

(** What [fetch] resolves to. *)
Record Response : Type := {
  res_status : Z;
  res_body : Body
}.

(** [response.ok]: the status is in the range 200-299. *)
Definition ok (r : Response) : bool :=
  ((200 <=? res_status r) && (res_status r <=? 299))%Z.

(** What the handler returns to the caller: the status, and the value
    [NextResponse.json] was given, which goes out as its
    [JSON.stringify]. *)
Record NextResponse : Type := {
  status : Z;
  payload : Json
}.

(** The statuses a response may not have a body with. *)
Definition null_body_status (s : Z) : bool :=
  ((s =? 101) || (s =? 103) || (s =? 204) || (s =? 205) || (s =? 304))%Z.

(** ** The effects of a handler *)

(** Errors, by class.  The [SyntaxError] of [JSON.parse] has the parser's
    message.  A [TypeError] is that of a failed [fetch], whose message is
    fixed and whose [cause] is the error of the transport, or that of the
    [Response] constructor, which has no cause.  The [RangeError] is the
    [Response] constructor's; its message is fixed. *)
Inductive JsError : Type :=
  | SyntaxError (message : string)
  | TypeError (cause : option string)
  | RangeError.

(** The outcome of one [fetch]: the backend's response, or a transport
    failure ([fetch] rejects with a [TypeError]). *)
Inductive FetchOutcome : Type :=
  | Responds (r : Response)
  | NetworkError (cause : string).

(** The world outside the handler: the backend and the network in front of
    it, which answer each call given the traffic so far. *)
Definition Network : Type :=
  list (FetchCall * FetchOutcome) -> FetchCall -> FetchOutcome.

Record World : Type := {
  wire : list (FetchCall * FetchOutcome);
  console : list (string * JsError)
}.

Definition empty_world : World := {| wire := []; console := [] |}.

Inductive Completion (A : Type) : Type :=
  | Normal (a : A)
  | Throw (e : JsError).
Arguments Normal {A} a.
Arguments Throw {A} e.

Definition Js (A : Type) : Type := Network -> World -> Completion A * World.

Definition ret {A} (a : A) : Js A := fun _ w => (Normal a, w).

Definition bind {A B} (m : Js A) (k : A -> Js B) : Js B :=
  fun net w =>
    match m net w with
    | (Normal a, w') => k a net w'
    | (Throw e, w') => (Throw e, w')
    end.

Definition throw {A} (e : JsError) : Js A := fun _ w => (Throw e, w).

(** [try { m } catch (error) { h error }] *)
Definition try_catch {A} (m : Js A) (h : JsError -> Js A) : Js A :=
  fun net w =>
    match m net w with
    | (Normal a, w') => (Normal a, w')
    | (Throw e, w') => h e net w'
    end.

Declare Scope js_scope.
Delimit Scope js_scope with js.
Notation "'await' x <- m ; k" := (bind m (fun x => k))
  (at level 10, x name, m at level 100, k at level 200) : js_scope.
Notation "m ;; k" := (bind m (fun _ => k))
  (at level 100, k at level 200, right associativity) : js_scope.
Local Open Scope js_scope.

(** [fetch(url, init)]: the call goes out, whatever comes back. *)
Definition fetch (u : string) (i : RequestInit) : Js Response :=
  fun net w =>
    let call := {| url := u; init := i |} in
    let outcome := net (wire w) call in
    let w' := {| wire := wire w ++ [(call, outcome)]; console := console w |} in
    match outcome with
    | Responds r => (Normal r, w')
    | NetworkError cause => (Throw (TypeError (Some cause)), w')
    end.

Definition parse_body (b : Body) : Js Json :=
  match b with
  | JsonText j => ret j
  | NotJson report => throw (SyntaxError report)
  end.

(** [request.json()] *)
Definition Request_json (request : NextRequest) : Js Json :=
  parse_body (req_body request).

(** [response.json()] *)
Definition Response_json (response : Response) : Js Json :=
  parse_body (res_body response).

(** [NextResponse.json(data, { status })]; without the second argument the
    status is 200.  The [Response] constructor underneath throws a
    [RangeError] for a status outside 200-599 and a [TypeError] for a
    status that allows no body. *)
Definition NextResponse_json (data : Json) (init_status : option Z)
  : Js NextResponse :=
  let s := match init_status with Some s => s | None => 200 end in
  if ((s <? 200) || (599 <? s))%Z then throw RangeError
  else if null_body_status s then throw (TypeError None)
  else ret {| status := s; payload := data |}.

(** [console.error(label, error)] *)
Definition console_error (label : string) (error : JsError) : Js unit :=
  fun _ w =>
    (Normal tt, {| wire := wire w; console := console w ++ [(label, error)] |}).

(** ** [encodeURIComponent]

    Strings are sequences of bytes (UTF-8).  Every byte is escaped as [%XX]
    except the unreserved marks [A-Z a-z 0-9 - _ . ! ~ * ' ( )]. *)

Definition uri_unreserved (c : ascii) : bool :=
  let n := N_of_ascii c in
  (((65 <=? n) && (n <=? 90)) || ((97 <=? n) && (n <=? 122))
   || ((48 <=? n) && (n <=? 57))
   || (n =? 45) || (n =? 95) || (n =? 46) || (n =? 33) || (n =? 126)
   || (n =? 42) || (n =? 39) || (n =? 40) || (n =? 41))%N.

Definition hex_digit (n : N) : ascii :=
  (if n <? 10 then ascii_of_N (48 + n) else ascii_of_N (55 + n))%N.

Definition percent_escape (c : ascii) : string :=
  let n := N_of_ascii c in
  String "%" (String (hex_digit (n / 16)) (String (hex_digit (n mod 16)) EmptyString)).

Fixpoint encodeURIComponent (s : string) : string :=
  match s with
  | EmptyString => EmptyString
  | String c rest =>
      (if uri_unreserved c then String c EmptyString else percent_escape c)
      +:+ encodeURIComponent rest
  end.

(** Reading one escape back: the value of a hexadecimal digit and the byte
    two digits stand for.  Used to tell encoded components apart. *)
Definition hex_value (c : ascii) : N :=
  let n := N_of_ascii c in
  (if n <? 58 then n - 48 else n - 55)%N.

Definition unescape (hi lo : ascii) : ascii :=
  ascii_of_N (16 * hex_value hi + hex_value lo)%N.

Fixpoint string_forallb (p : ascii -> bool) (s : string) : bool :=
  match s with
  | EmptyString => true
  | String c rest => p c && string_forallb p rest
  end.

(** The characters an encoded component is made of: unreserved marks and
    the [%] of an escape; none of them delimits a URL. *)
Definition uri_component_char (c : ascii) : bool :=
  uri_unreserved c || (N_of_ascii c =? 37)%N.

(** ** The route handlers *)

(** The two fixed bodies the handlers make up themselves. *)
Definition error_body (message : string) : Json :=
  JObject [("error", JString message)].

(** [app/api/v1/members/delete-member/route.ts] *)
Module DeleteMember.
Section Route.
(* imported from [@/lib/api-config] *)
Variable SERVER_API_URL : string.

Definition API_BASE_URL : string := SERVER_API_URL.

Definition try_block (request : NextRequest) : Js NextResponse :=
  match Headers_get (req_headers request) "Authorization" with
  | None | Some EmptyString =>        (* !authHeader *)
      NextResponse_json
        (error_body "Authorization header is required") (Some 401)
  | Some authHeader =>
      await body <- Request_json request;
      await response <-
        fetch (API_BASE_URL +:+ "/api/v1/members/delete-member")
              {| method := "POST";
                 headers := {[ "Content-Type" := "application/json";
                               "Accept" := "application/json";
                               "Authorization" := authHeader ]};
                 body := Some (JSON_stringify body) |};
      await data <- Response_json response;
      if negb (ok response)
      then NextResponse_json data (Some (res_status response))
      else NextResponse_json data None
  end.

Definition catch_block (error : JsError) : Js NextResponse :=
  console_error "Error deleting member:" error ;;
  NextResponse_json (error_body "Internal server error") (Some 500).

Definition POST (request : NextRequest) : Js NextResponse :=
  try_catch (try_block request) catch_block.
End Route.
End DeleteMember.

(** [app/api/v1/users/me/route.ts] *)
Module UsersMe.
Section Route.
Variable SERVER_API_URL : string.

Definition API_BASE_URL : string := SERVER_API_URL.

Definition try_block (request : NextRequest) : Js NextResponse :=
  match Headers_get (req_headers request) "Authorization" with
  | None | Some EmptyString =>        (* !authHeader *)
      NextResponse_json
        (error_body "Authorization header is required") (Some 401)
  | Some authHeader =>
      await response <-
        fetch (API_BASE_URL +:+ "/api/v1/users/me")
              {| method := "GET";
                 headers := {[ "Accept" := "application/json";
                               "Authorization" := authHeader ]};
                 body := None |};
      await data <- Response_json response;
      if negb (ok response)
      then NextResponse_json data (Some (res_status response))
      else NextResponse_json data None
  end.

Definition catch_block (error : JsError) : Js NextResponse :=
  console_error "Error fetching current user:" error ;;
  NextResponse_json (error_body "Internal server error") (Some 500).

Definition GET (request : NextRequest) : Js NextResponse :=
  try_catch (try_block request) catch_block.
End Route.
End UsersMe.

(** [app/api/v1/users/[email]/route.ts] *)
Module UsersEmail.
Section Route.
Variable SERVER_API_URL : string.

Definition API_BASE_URL : string := SERVER_API_URL.

Definition try_block (request : NextRequest) (params : Params) : Js NextResponse :=
  let email := email params in
  await response <-
    fetch (API_BASE_URL +:+ "/api/v1/users/" +:+ encodeURIComponent email)
          {| method := "GET";
             headers := {[ "Accept" := "application/json" ]};
             body := None |};
  await data <- Response_json response;
  if negb (ok response)
  then NextResponse_json data (Some (res_status response))
  else NextResponse_json data None.

Definition catch_block (error : JsError) : Js NextResponse :=
  console_error "Error checking user:" error ;;
  NextResponse_json (error_body "Internal server error") (Some 500).

Definition GET (request : NextRequest) (params : Params) : Js NextResponse :=
  try_catch (try_block request params) catch_block.
End Route.
End UsersEmail.

(** ** Routing

    Next.js maps the request path and method to the handler exported by the
    matching [route.ts]. *)

Inductive Route : Type :=
  | DeleteMember_POST
  | UsersMe_GET
  | UsersEmail_GET (params : Params).

(** The two responses the handlers make up themselves. *)
Definition missing_authorization : NextResponse :=
  {| status := 401; payload := error_body "Authorization header is required" |}.

Definition internal_server_error : NextResponse :=
  {| status := 500; payload := error_body "Internal server error" |}.

(** The routes whose handler starts with the [!authHeader] test. *)
Definition auth_required (rt : Route) : bool :=
  match rt with
  | DeleteMember_POST | UsersMe_GET => true
  | UsersEmail_GET _ => false
  end.

(** [!authHeader] is false: the header is there and is not the empty string. *)
Definition authorized (request : NextRequest) : bool :=
  match Headers_get (req_headers request) "Authorization" with
  | Some (String _ _) => true
  | _ => false
  end.

Definition body_is_json (b : Body) : bool :=
  match b with JsonText _ => true | NotJson _ => false end.

(** The requests whose handler gets as far as its [fetch]. *)
Definition reaches_fetch (rt : Route) (request : NextRequest) : bool :=
  match rt with
  | DeleteMember_POST => authorized request && body_is_json (req_body request)
  | UsersMe_GET => authorized request
  | UsersEmail_GET _ => true
  end.

(** The path each route asks the backend for. *)
Definition resource_path (rt : Route) : string :=
  match rt with
  | DeleteMember_POST => "/api/v1/members/delete-member"
  | UsersMe_GET => "/api/v1/users/me"
  | UsersEmail_GET params => "/api/v1/users/" +:+ encodeURIComponent (email params)
  end.

(** The label each route's [catch] gives [console.error]. *)
Definition diagnostic (rt : Route) : string :=
  match rt with
  | DeleteMember_POST => "Error deleting member:"
  | UsersMe_GET => "Error fetching current user:"
  | UsersEmail_GET _ => "Error checking user:"
  end.

(** ** Sample requests and backends *)

(** The backend address of the development set-up ([API_URL]). *)
Definition localhost : string := "http://localhost:8000".

(** A request, from its header lines and its body; the [Headers] object
    keeps each line under its lower-cased name. *)
Definition request_of (lines : list (string * string)) (b : Body) : NextRequest :=
  {| req_headers :=
       {| entries := list_to_map (prod_map to_lower id <$> lines) |};
     req_body := b |}.

Definition anonymous : NextRequest :=
  request_of [] (NotJson "Unexpected end of JSON input").

Definition bearer : NextRequest :=
  request_of [("Authorization", "Bearer token-123")]
             (JsonText (JObject [("memberId", JString "123")])).

(** A backend that gives the same answer to every call. *)
Definition replies (out : FetchOutcome) : Network := fun _ _ => out.

Definition not_found : Response :=
  {| res_status := 404; res_body := JsonText (error_body "not found") |}.

Definition created : Response :=
  {| res_status := 201;
     res_body := JsonText (JObject [("success", JBool true)]) |}.

Definition bad_gateway : Response :=
  {| res_status := 502;
     res_body := NotJson "Unexpected token < in JSON at position 0" |}.

(** A reply under a status no HTTP response should have. *)
Definition beyond_range : Response :=
  {| res_status := 600; res_body := JsonText (error_body "not found") |}.

Definition not_authenticated : Response :=
  {| res_status := 401; res_body := JsonText (JObject [("detail", JString "Not authenticated")]) |}.

Definition unknown_user : Route :=
  UsersEmail_GET {| email := "unknown@example.com" |}.

(** A request whose [Authorization] header is there, with nothing in it. *)
Definition blank_authorization : NextRequest :=
  request_of [("Authorization", "")]
             (JsonText (JObject [("memberId", JString "123")])).

(** The request [bearer], with a cookie beside the authorization. *)
Definition bearer_with_cookie : NextRequest :=
  request_of [("Cookie", "session=abc"); ("Authorization", "Bearer token-123")]
             (JsonText (JObject [("memberId", JString "123")])).

Section Proxy.
Variable SERVER_API_URL : string.

Definition handle (rt : Route) (request : NextRequest) : Js NextResponse :=
  match rt with
  | DeleteMember_POST => DeleteMember.POST SERVER_API_URL request
  | UsersMe_GET => UsersMe.GET SERVER_API_URL request
  | UsersEmail_GET params => UsersEmail.GET SERVER_API_URL request params
  end.

(** The [try] block of the route's handler, on its own. *)
Definition attempt (rt : Route) (request : NextRequest) : Js NextResponse :=
  match rt with
  | DeleteMember_POST => DeleteMember.try_block SERVER_API_URL request
  | UsersMe_GET => UsersMe.try_block SERVER_API_URL request
  | UsersEmail_GET params => UsersEmail.try_block SERVER_API_URL request params
  end.

(** One invocation: the handler runs against a network, from a world in
    which nothing has been sent or logged. *)
Definition serve (rt : Route) (request : NextRequest) (net : Network)
  : Completion NextResponse * World :=
  handle rt request net empty_world.

Definition response_of (rt : Route) (request : NextRequest) (net : Network)
  : Completion NextResponse := fst (serve rt request net).

(** The traffic of one invocation: each call with what came back. *)
Definition traffic (rt : Route) (request : NextRequest) (net : Network)
  : list (FetchCall * FetchOutcome) := wire (snd (serve rt request net)).

Definition logged (rt : Route) (request : NextRequest) (net : Network)
  : list (string * JsError) := console (snd (serve rt request net)).

(** Two properties as the specification words them, for every route
    alike: the call sent out repeats the inbound [Authorization] value,
    and an invocation sends exactly one call. *)
Definition forwards_authorization (rt : Route) (request : NextRequest)
    (net : Network) : Prop :=
  forall v,
    Headers_get (req_headers request) "Authorization" = Some v ->
    forall call out,
      In (call, out) (traffic rt request net) ->
      headers (init call) !! "Authorization" = Some v.

Definition exactly_one_call (rt : Route) (request : NextRequest)
    (net : Network) : Prop :=
  length (traffic rt request net) = 1%nat.

(** A third: whatever the backend answers with a status outside 200-299
    and a body that parses comes back with that status and that body. *)
Definition passes_through (rt : Route) (request : NextRequest)
    (net : Network) : Prop :=
  forall call r data,
    In (call, Responds r) (traffic rt request net) ->
    res_status r < 200 \/ 299 < res_status r ->
    res_body r = JsonText data ->
    response_of rt request net
      = Normal {| status := res_status r; payload := data |}.

(** ** Running a handler *)

Ltac expose :=
  unfold response_of, traffic, logged, serve, handle, attempt,
    DeleteMember.POST, DeleteMember.try_block, DeleteMember.catch_block,
    UsersMe.GET, UsersMe.try_block, UsersMe.catch_block,
    UsersEmail.GET, UsersEmail.try_block, UsersEmail.catch_block,
    DeleteMember.API_BASE_URL, UsersMe.API_BASE_URL, UsersEmail.API_BASE_URL,
    Request_json, Response_json, parse_body, console_error,
    NextResponse_json, try_catch, bind, fetch, ret, throw, empty_world,
    reaches_fetch, authorized, body_is_json, auth_required in *;
  cbn [fst snd wire console app negb andb] in *.

(* a test on constants is evaluated; otherwise case analysis on the
   innermost scrutinee the run is stuck on *)
Ltac branch :=
  match goal with
  | |- context [if ?x then _ else _] =>
      let v := eval vm_compute in x in
      first [constr_eq v true | constr_eq v false]; change x with v
  | |- context [negb ?b] => destruct b eqn:?
  | |- context [match ?x with _ => _ end] =>
      lazymatch x with
      | context [match _ with _ => _ end] => fail
      | _ => destruct x eqn:?
      end
  end; cbn [fst snd wire console app negb andb] in *.

(* what the tests on a status say, as arithmetic *)
Ltac status_facts :=
  unfold ok, null_body_status in *;
  rewrite ?orb_true_iff, ?orb_false_iff, ?andb_true_iff, ?andb_false_iff,
    ?Z.ltb_lt, ?Z.ltb_ge, ?Z.leb_le, ?Z.leb_gt, ?Z.eqb_eq, ?Z.eqb_neq in *.

Ltac run := expose; repeat branch.

(** A handler always completes normally: nothing escapes the [catch]. *)
Lemma handler_never_throws rt request net :
  exists response, response_of rt request net = Normal response.
Proof. destruct rt; run; eauto. Qed.

Lemma serve_unauthorized rt request net :
  auth_required rt = true -> authorized request = false ->
  serve rt request net = (Normal missing_authorization, empty_world).
Proof. destruct rt; run; intros; simplify_eq; reflexivity. Qed.

Lemma authorized_None request :
  Headers_get (req_headers request) "Authorization" = None ->
  authorized request = false.
Proof. unfold authorized. now intros ->. Qed.

Lemma authorized_Some request v :
  Headers_get (req_headers request) "Authorization" = Some v ->
  v <> "" -> authorized request = true.
Proof. unfold authorized. intros -> Hv. now destruct v. Qed.

Lemma serve_unreadable_request request net raw :
  authorized request = true -> req_body request = NotJson raw ->
  serve DeleteMember_POST request net =
    (Normal internal_server_error,
     {| wire := [];
        console := [(diagnostic DeleteMember_POST, SyntaxError raw)] |}).
Proof. run; intros; simplify_eq; reflexivity. Qed.

(** Whatever went over the wire is the whole traffic of the invocation,
    and it was sent from a world in which nothing had been sent. *)
Lemma traffic_single rt request net call out :
  In (call, out) (traffic rt request net) ->
  traffic rt request net = [(call, out)] /\ out = net [] call /\
  reaches_fetch rt request = true.
Proof.
  destruct rt; run; cbn [In]; intros Hin; intuition; simplify_eq; auto.
Qed.

Lemma traffic_reached rt request net :
  reaches_fetch rt request = true ->
  exists call out, traffic rt request net = [(call, out)].
Proof. destruct rt; run; intros; simplify_eq; eauto. Qed.

(* the only call of the invocation, once it is known to be in the traffic *)
Ltac the_call Hin :=
  cbn [In]; intros Hin; try contradiction; destruct Hin as [Hin|[]];
  simplify_eq.

Lemma relay_success rt request net call r data :
  In (call, Responds r) (traffic rt request net) ->
  res_body r = JsonText data ->
  200 <= res_status r <= 299 ->
  serve rt request net
    = (Normal {| status := 200; payload := data |},
       {| wire := [(call, Responds r)]; console := [] |}).
Proof.
  destruct rt; run; the_call Hin; intros Hb Hs; rewrite ?Hb in *;
    simplify_eq; status_facts; solve [reflexivity | lia].
Qed.

Lemma relay_failure rt request net call r data :
  In (call, Responds r) (traffic rt request net) ->
  res_body r = JsonText data ->
  300 <= res_status r <= 599 -> res_status r <> 304 ->
  serve rt request net
    = (Normal {| status := res_status r; payload := data |},
       {| wire := [(call, Responds r)]; console := [] |}).
Proof.
  destruct rt; run; the_call Hin; intros Hb Hs Hn; rewrite ?Hb in *;
    simplify_eq; status_facts; solve [reflexivity | lia].
Qed.

Lemma relay_refused rt request net call r data :
  In (call, Responds r) (traffic rt request net) ->
  res_body r = JsonText data ->
  res_status r < 200 \/ 599 < res_status r \/ res_status r = 304 ->
  exists e,
    (e = RangeError \/ e = TypeError None)
    /\ serve rt request net
        = (Normal internal_server_error,
           {| wire := [(call, Responds r)]; console := [(diagnostic rt, e)] |}).
Proof.
  destruct rt; run; the_call Hin; intros Hb Hs; rewrite ?Hb in *;
    simplify_eq; status_facts;
    solve [ lia | eexists; split; [|reflexivity]; auto ].
Qed.

Lemma relay_not_json rt request net call r raw :
  In (call, Responds r) (traffic rt request net) ->
  res_body r = NotJson raw ->
  response_of rt request net = Normal internal_server_error.
Proof.
  destruct rt; run; cbn [In]; intros Hin Hb; intuition; simplify_eq;
    rewrite ?Hb in *; simplify_eq; reflexivity.
Qed.

Lemma transport_failure rt request net call msg :
  In (call, NetworkError msg) (traffic rt request net) ->
  response_of rt request net = Normal internal_server_error.
Proof.
  destruct rt; run; cbn [In]; intros Hin; intuition; simplify_eq; reflexivity.
Qed.

Lemma caught rt request net e w :
  attempt rt request net empty_world = (Throw e, w) ->
  serve rt request net =
    (Normal internal_server_error,
     {| wire := wire w; console := console w ++ [(diagnostic rt, e)] |}).
Proof.
  destruct rt; run; intros; simplify_eq; reflexivity.
Qed.

Lemma call_url rt request net call out :
  In (call, out) (traffic rt request net) ->
  url call = SERVER_API_URL +:+ resource_path rt.
Proof.
  destruct rt; run; cbn [In]; intros Hin; intuition; simplify_eq; reflexivity.
Qed.

Lemma call_authorization rt request net call out :
  In (call, out) (traffic rt request net) ->
  headers (init call) !! "Authorization" =
    if auth_required rt
    then Headers_get (req_headers request) "Authorization"
    else None.
Proof.
  destruct rt; run; cbn [In]; intros Hin; intuition; simplify_eq;
    cbn [init headers]; by simplify_map_eq.
Qed.

(** ** [encodeURIComponent] leaves nothing that delimits a URL *)

Lemma string_forallb_app p s t :
  string_forallb p (s +:+ t) = string_forallb p s && string_forallb p t.
Proof.
  induction s as [|c s IH]; simpl; [reflexivity|].
  rewrite IH. apply andb_assoc.
Qed.

Lemma percent_escape_safe c :
  string_forallb uri_component_char (percent_escape c) = true.
Proof. destruct c as [[] [] [] [] [] [] [] []]; reflexivity. Qed.

Lemma encodeURIComponent_safe s :
  string_forallb uri_component_char (encodeURIComponent s) = true.
Proof.
  induction s as [|c s IH]; cbn [encodeURIComponent]; [reflexivity|].
  rewrite string_forallb_app, IH, andb_true_r.
  destruct (uri_unreserved c) eqn:Hc.
  - cbn. unfold uri_component_char. now rewrite Hc.
  - apply percent_escape_safe.
Qed.

(** A request that gets as far as the [fetch] sends its one call into a
    network that has seen nothing of this invocation. *)
Lemma only_call rt request net :
  reaches_fetch rt request = true ->
  exists call, traffic rt request net = [(call, net [] call)].
Proof.
  intros Hr. destruct (traffic_reached rt request net Hr) as (call & out & Ht).
  exists call. rewrite Ht.
  destruct (traffic_single rt request net call out) as (_ & -> & _);
    [rewrite Ht; now left | reflexivity].
Qed.

Lemma answered rt request net r :
  reaches_fetch rt request = true ->
  (forall call, net [] call = Responds r) ->
  exists call, traffic rt request net = [(call, Responds r)].
Proof.
  intros Hr Hnet. destruct (only_call rt request net Hr) as (call & Ht).
  exists call. now rewrite Ht, Hnet.
Qed.

(** ** The properties of the routes *)

(** C1: on the two routes that require it (POST delete-member, GET
    users/me), a request without an [Authorization] header is answered
    with status 401 and the body [{ error: "Authorization header is
    required" }]; nothing is sent to the backend (and nothing is logged). *)
Theorem C1_missing_authorization_rejected request net :
  Headers_get (req_headers request) "Authorization" = None ->
  serve DeleteMember_POST request net
    = (Normal {| status := 401;
                 payload := JObject [("error", JString "Authorization header is required")] |},
       {| wire := []; console := [] |})
  /\ serve UsersMe_GET request net
    = (Normal {| status := 401;
                 payload := JObject [("error", JString "Authorization header is required")] |},
       {| wire := []; console := [] |}).
Proof.
  intros Hget. apply authorized_None in Hget.
  split; now apply serve_unauthorized.
Qed.

(** C2 (amended): on every route, when the handler's call is answered
    with a body that parses as JSON and a status from 300 to 599 other than
    304 (which allows no body), the route answers with the backend's status
    and the backend's parsed body.  Under a status below 200 or above 599
    [NextResponse.json] refuses the status, and the route answers with the
    generic 500. *)
Theorem C2_backend_error_passthrough rt request net r data :
  reaches_fetch rt request = true ->
  (forall call, net [] call = Responds r) ->
  res_body r = JsonText data ->
  (300 <= res_status r <= 599 -> res_status r <> 304 ->
   response_of rt request net
     = Normal {| status := res_status r; payload := data |})
  /\ (res_status r < 200 \/ 599 < res_status r ->
      response_of rt request net
        = Normal {| status := 500;
                    payload := JObject [("error", JString "Internal server error")] |}).
Proof.
  intros Hr Hnet Hb.
  destruct (answered rt request net r Hr Hnet) as (call & Ht).
  assert (Hin : In (call, Responds r) (traffic rt request net))
    by (rewrite Ht; now left).
  unfold response_of. split.
  - intros Hs Hn. now rewrite (relay_failure _ _ _ _ _ _ Hin Hb Hs Hn).
  - intros Hs.
    destruct (relay_refused _ _ _ _ _ _ Hin Hb) as (e & _ & ->);
      [tauto | reflexivity].
Qed.

(** C3 (amended): every call a handler sends carries, on the two routes
    that require authorization, exactly the [Authorization] value of the
    inbound request; the call of GET users/[email] carries no
    [Authorization] header at all, whatever the inbound request has. *)
Theorem C3_authorization_forwarded_where_required rt request net call out :
  In (call, out) (traffic rt request net) ->
  headers (init call) !! "Authorization" =
    match rt with
    | DeleteMember_POST | UsersMe_GET =>
        Headers_get (req_headers request) "Authorization"
    | UsersEmail_GET _ => None
    end.
Proof.
  intros Hin. rewrite (call_authorization _ _ _ _ _ Hin).
  now destruct rt.
Qed.

(** C4: on every route, an exception raised in the [try] block is caught:
    the handler logs it and answers with status 500 and the body
    [{ error: "Internal server error" }], which holds nothing of the
    error.  This covers an inbound body that is not JSON (building the
    request), a failure of the transport, and a backend body that is not
    JSON. *)
Theorem C4_exception_gives_generic_500 rt request net :
  (forall e w,
      attempt rt request net empty_world = (Throw e, w) ->
      serve rt request net
        = (Normal {| status := 500;
                     payload := JObject [("error", JString "Internal server error")] |},
           {| wire := wire w; console := console w ++ [(diagnostic rt, e)] |}))
  /\ (forall raw,
        rt = DeleteMember_POST -> authorized request = true ->
        req_body request = NotJson raw ->
        response_of rt request net = Normal internal_server_error)
  /\ (forall call msg,
        In (call, NetworkError msg) (traffic rt request net) ->
        response_of rt request net = Normal internal_server_error)
  /\ (forall call r raw,
        In (call, Responds r) (traffic rt request net) ->
        res_body r = NotJson raw ->
        response_of rt request net = Normal internal_server_error).
Proof.
  split; [|split; [|split]].
  - intros e w. apply caught.
  - intros raw -> Hauth Hbody. unfold response_of.
    now rewrite (serve_unreadable_request _ _ _ Hauth Hbody).
  - intros call msg. apply transport_failure.
  - intros call r raw. apply relay_not_json.
Qed.

(** C5: on every route, when the handler's call is answered with a
    status in 200-299 and a body that parses as JSON, the route answers
    with status 200, whichever 2xx the backend used, and the backend's
    parsed body. *)
Theorem C5_success_relayed_as_200 rt request net r data :
  reaches_fetch rt request = true ->
  (forall call, net [] call = Responds r) ->
  200 <= res_status r <= 299 ->
  res_body r = JsonText data ->
  response_of rt request net = Normal {| status := 200; payload := data |}.
Proof.
  intros Hr Hnet Hs Hb.
  destruct (answered rt request net r Hr Hnet) as (call & Ht).
  assert (Hin : In (call, Responds r) (traffic rt request net))
    by (rewrite Ht; now left).
  unfold response_of. now rewrite (relay_success _ _ _ _ _ _ Hin Hb Hs).
Qed.

(** C6: on every route, when the handler's call is answered with a body
    that is not valid JSON, the route answers with the generic 500,
    whatever the backend's status: the body is parsed before the status is
    looked at, so a failure status with such a body is not passed
    through. *)
Theorem C6_unparsable_backend_body_gives_500 rt request net r report :
  reaches_fetch rt request = true ->
  (forall call, net [] call = Responds r) ->
  res_body r = NotJson report ->
  response_of rt request net
    = Normal {| status := 500;
                payload := JObject [("error", JString "Internal server error")] |}.
Proof.
  intros Hr Hnet Hb.
  destruct (answered rt request net r Hr Hnet) as (call & Ht).
  apply (relay_not_json rt request net call r report); [|exact Hb].
  rewrite Ht. now left.
Qed.

(** C7: GET users/[email] asks for no authorization.  Whatever the
    inbound request carries, the handler sends its one call to the
    backend, and the outcome does not depend on the inbound request; it
    never answers the way the routes of C1 do (401 with nothing sent),
    and a 401 it returns is the backend's own, relayed. *)
Theorem C7_users_email_needs_no_authorization params request net :
  (exists out,
      traffic (UsersEmail_GET params) request net
        = [({| url := SERVER_API_URL +:+ "/api/v1/users/"
                        +:+ encodeURIComponent (email params);
               init := {| method := "GET";
                          headers := {[ "Accept" := "application/json" ]};
                          body := None |} |}, out)])
  /\ (forall request',
        serve (UsersEmail_GET params) request' net
          = serve (UsersEmail_GET params) request net)
  /\ serve (UsersEmail_GET params) request net
        <> (Normal missing_authorization, empty_world)
  /\ (forall response,
        response_of (UsersEmail_GET params) request net = Normal response ->
        status response = 401 ->
        exists call r,
          traffic (UsersEmail_GET params) request net = [(call, Responds r)]
          /\ res_status r = 401 /\ res_body r = JsonText (payload response)).
Proof.
  split; [|split; [|split]].
  - run; eauto.
  - reflexivity.
  - run; intros Heq; discriminate Heq.
  - run; intros response Heq Hst; simplify_eq; cbn in Hst;
      try discriminate Hst; eauto 6.
Qed.

(** C8 (amended): an invocation sends at most one call to the backend;
    what was sent once is never sent again, also when the call failed.
    It sends exactly one call when the handler gets as far as its
    [fetch], and none when it stops before: on a route that requires
    authorization, when the [Authorization] header is missing or empty;
    on POST delete-member, also when the inbound body is not JSON. *)
Theorem C8_at_most_one_call rt request net :
  (length (traffic rt request net) <= 1)%nat
  /\ (length (traffic rt request net) = 1%nat <-> reaches_fetch rt request = true)
  /\ (forall call out,
        In (call, out) (traffic rt request net) ->
        traffic rt request net = [(call, out)]).
Proof.
  split; [|split].
  - destruct rt; run; cbn [length]; lia.
  - split.
    + destruct (traffic rt request net) as [|[call out] rest] eqn:Ht;
        [discriminate|]. intros _.
      apply (traffic_single rt request net call out).
      rewrite Ht. now left.
    + intros Hr.
      destruct (traffic_reached rt request net Hr) as (call & out & ->).
      reflexivity.
  - intros call out Hin. now apply traffic_single.
Qed.

(** C9: on every route, the request that gets as far as the [fetch] sends
    its call to the configured base URL followed by the path of the route:
    [/api/v1/members/delete-member], [/api/v1/users/me], or
    [/api/v1/users/] followed by [encodeURIComponent] of the [email]
    parameter, in which only unreserved characters and [%] are left. *)
Theorem C9_target_url rt request net :
  reaches_fetch rt request = true ->
  (exists call,
      traffic rt request net = [(call, net [] call)]
      /\ url call
          = SERVER_API_URL +:+
            match rt with
            | DeleteMember_POST => "/api/v1/members/delete-member"
            | UsersMe_GET => "/api/v1/users/me"
            | UsersEmail_GET params =>
                "/api/v1/users/" +:+ encodeURIComponent (email params)
            end)
  /\ forall params,
       rt = UsersEmail_GET params ->
       string_forallb uri_component_char (encodeURIComponent (email params))
         = true.
Proof.
  intros Hr. split.
  - destruct (only_call rt request net Hr) as (call & Ht).
    exists call. split; [exact Ht|].
    rewrite (call_url rt request net call (net [] call))
      by (rewrite Ht; now left).
    now destruct rt.
  - intros params _. apply encodeURIComponent_safe.
Qed.

(** C10: POST delete-member tests the [Authorization] header before it
    reads the inbound body.  Without the header the answer is the 401,
    whatever the body; with it, an inbound body that is not JSON gives
    the generic 500, and nothing is sent to the backend. *)
Theorem C10_authorization_checked_before_body hs inbound net :
  (Headers_get hs "Authorization" = None ->
   serve DeleteMember_POST {| req_headers := hs; req_body := inbound |} net
     = (Normal missing_authorization, empty_world))
  /\ (forall v raw,
        Headers_get hs "Authorization" = Some v -> v <> "" ->
        inbound = NotJson raw ->
        response_of DeleteMember_POST
          {| req_headers := hs; req_body := inbound |} net
          = Normal internal_server_error
        /\ traffic DeleteMember_POST
             {| req_headers := hs; req_body := inbound |} net = []).
Proof.
  split.
  - intros Hget. apply serve_unauthorized; [reflexivity|].
    now apply authorized_None.
  - intros v raw Hget Hv ->.
    assert (Hauth : authorized {| req_headers := hs; req_body := NotJson raw |} = true)
      by (now apply authorized_Some with v).
    unfold response_of, traffic.
    now rewrite (serve_unreadable_request _ _ raw Hauth eq_refl).
Qed.

(** ** Further properties of the handlers *)

Lemma unescape_hex_digits c :
  unescape (hex_digit (N_of_ascii c / 16)) (hex_digit (N_of_ascii c mod 16)) = c.
Proof. destruct c as [[] [] [] [] [] [] [] []]; reflexivity. Qed.

Lemma encodeURIComponent_inj s t :
  encodeURIComponent s = encodeURIComponent t -> s = t.
Proof.
  revert t. induction s as [|a s IH]; intros [|b t]; cbn [encodeURIComponent].
  - reflexivity.
  - destruct (uri_unreserved b); discriminate.
  - destruct (uri_unreserved a); discriminate.
  - destruct (uri_unreserved a) eqn:Ha, (uri_unreserved b) eqn:Hb;
      unfold percent_escape; simpl; intros Heq.
    + injection Heq as -> Hrest. f_equal. now apply IH.
    + injection Heq as -> _. discriminate Ha.
    + injection Heq as <- _. discriminate Hb.
    + injection Heq as Hhi Hlo Hrest.
      rewrite <- (unescape_hex_digits a), <- (unescape_hex_digits b).
      rewrite Hhi, Hlo. f_equal. now apply IH.
Qed.

(** X1: a handler started in any world completes normally: nothing escapes
    its [catch].  What had been sent and logged before stays in place, and
    the invocation adds at most one call and at most one log entry. *)
Theorem X1_handler_completes_and_appends rt request net w :
  exists response sent noted,
    handle rt request net w
      = (Normal response,
         {| wire := wire w ++ sent; console := console w ++ noted |})
    /\ (length sent <= 1)%nat /\ (length noted <= 1)%nat.
Proof.
  destruct w as [sent0 noted0].
  destruct rt; run;
    eexists;
    match goal with
    | |- context [{| wire := sent0 ++ ?x; console := noted0 ++ ?y |}] =>
        exists x, y
    | |- context [{| wire := sent0 ++ ?x; console := noted0 |}] =>
        exists x, []
    | |- context [{| wire := sent0; console := noted0 ++ ?y |}] =>
        exists [], y
    | |- _ => exists [], []
    end;
    rewrite ?app_nil_r; (split; [reflexivity | cbn; lia]).
Qed.

(** X2: the outcomes of an invocation, all of them.  Either the handler
    refuses (a route that requires authorization, no usable header: the 401,
    nothing sent); or it fails with the generic 500, and then the inbound
    body of POST delete-member was not JSON and nothing was sent, or the one
    call failed in transport, or the backend's body was not JSON, or the
    backend's body was JSON under a status [NextResponse.json] refuses
    (below 200, above 599, or 304); or it relays the parsed body of the one
    reply, as 200 when the backend's status is in 200-299 and with the
    backend's status otherwise. *)
Theorem X2_outcomes rt request net :
  (auth_required rt = true /\ authorized request = false
   /\ response_of rt request net = Normal missing_authorization
   /\ traffic rt request net = [])
  \/ (response_of rt request net = Normal internal_server_error
      /\ ((exists report,
             rt = DeleteMember_POST /\ req_body request = NotJson report
             /\ traffic rt request net = [])
          \/ (exists call cause,
                traffic rt request net = [(call, NetworkError cause)])
          \/ (exists call r report,
                traffic rt request net = [(call, Responds r)]
                /\ res_body r = NotJson report)
          \/ (exists call r data,
                traffic rt request net = [(call, Responds r)]
                /\ res_body r = JsonText data
                /\ (res_status r < 200 \/ 599 < res_status r
                    \/ res_status r = 304))))
  \/ (exists call r data,
        traffic rt request net = [(call, Responds r)]
        /\ res_body r = JsonText data
        /\ response_of rt request net
            = Normal {| status := if ok r then 200 else res_status r;
                        payload := data |}
        /\ 200 <= res_status r <= 599 /\ res_status r <> 304).
Proof.
  destruct rt; run;
    first
      [ left; repeat split; reflexivity
      | right; left; split; [reflexivity|];
        first [ left; eexists; repeat split; reflexivity
              | right; left; do 2 eexists; reflexivity
              | right; right; left; do 3 eexists;
                split; [reflexivity|eassumption]
              | right; right; right; do 3 eexists;
                split; [reflexivity|]; split; [eassumption|];
                status_facts; lia ]
      | right; right; do 3 eexists; split; [reflexivity|];
        split; [eassumption|];
        split; [match goal with H : ok _ = _ |- _ => rewrite H end;
                reflexivity|];
        status_facts; lia ].
Qed.

(** X3: a handler never answers with a status in 200-299 other than 200. *)
Theorem X3_only_200_among_2xx rt request net response :
  response_of rt request net = Normal response ->
  200 <= status response <= 299 ->
  status response = 200.
Proof.
  destruct rt; run; intros Heq Hst; simplify_eq; cbn [status] in *;
    try reflexivity; try lia;
    match goal with
    | H : ok _ = false |- _ =>
        unfold ok in H; apply andb_false_iff in H;
        destruct H as [H|H]; apply Z.leb_gt in H; lia
    end.
Qed.

(** X4: on the routes that require authorization the guard is exact: the
    handler answers with its own 401, nothing sent and nothing logged,
    exactly when the [Authorization] header is missing or empty. *)
Theorem X4_guard_is_exact rt request net :
  rt = DeleteMember_POST \/ rt = UsersMe_GET ->
  serve rt request net = (Normal missing_authorization, empty_world)
  <-> (Headers_get (req_headers request) "Authorization" = None
       \/ Headers_get (req_headers request) "Authorization" = Some "").
Proof.
  intros Hrt. split.
  - destruct Hrt as [-> | ->]; run; intros Heq;
      solve [ auto | discriminate Heq ].
  - intros Hget. apply serve_unauthorized.
    + now destruct Hrt as [-> | ->].
    + unfold authorized. now destruct Hget as [-> | ->].
Qed.

Lemma call_shape rt request net call out :
  In (call, out) (traffic rt request net) ->
  method (init call)
    = match rt with DeleteMember_POST => "POST" | _ => "GET" end
  /\ headers (init call) !! "Accept" = Some "application/json"
  /\ headers (init call) !! "Content-Type"
      = match rt with
        | DeleteMember_POST => Some "application/json"
        | _ => None
        end
  /\ match rt with
     | DeleteMember_POST =>
         exists data,
           req_body request = JsonText data
           /\ body (init call) = Some (JSON_stringify data)
     | _ => body (init call) = None
     end
  /\ forall name,
       is_Some (headers (init call) !! name) ->
       name = "Accept" \/ name = "Content-Type" \/ name = "Authorization".
Proof.
  destruct rt; run; the_call Hin;
    cbn [init headers method body];
    (split; [reflexivity|]); (split; [by simplify_map_eq|]);
    (split; [by simplify_map_eq|]); (split; [eauto|]);
    intros name [v Hv];
    repeat match goal with
           | H : <[ ?k := _ ]> _ !! ?n = Some _ |- _ =>
               destruct (decide (k = n)) as [<- | ?];
               [ tauto | rewrite lookup_insert_ne in H by assumption ]
           | H : {[ ?k := _ ]} !! ?n = Some _ |- _ =>
               destruct (decide (k = n)) as [<- | ?];
               [ tauto | rewrite lookup_singleton_ne in H by assumption;
                         discriminate H ]
           end.
Qed.

(** X5: a request that gets as far as the [fetch] sends one call, with the
    method of the route (POST for delete-member, GET for the two others)
    and [Accept: application/json] among the headers the handler gives
    [fetch].  POST delete-member gives [fetch] the [JSON.stringify] of the
    parsed inbound body, with [Content-Type: application/json]; the GET
    routes give it no body and no [Content-Type].  The handler gives
    [fetch] no header other than [Accept], [Content-Type] and
    [Authorization]. *)
Theorem X5_shape_of_the_call rt request net :
  reaches_fetch rt request = true ->
  exists call,
    traffic rt request net = [(call, net [] call)]
    /\ method (init call)
        = match rt with DeleteMember_POST => "POST" | _ => "GET" end
    /\ headers (init call) !! "Accept" = Some "application/json"
    /\ headers (init call) !! "Content-Type"
        = match rt with
          | DeleteMember_POST => Some "application/json"
          | _ => None
          end
    /\ match rt with
       | DeleteMember_POST =>
           exists data,
             req_body request = JsonText data
             /\ body (init call) = Some (JSON_stringify data)
       | _ => body (init call) = None
       end
    /\ forall name,
         is_Some (headers (init call) !! name) ->
         name = "Accept" \/ name = "Content-Type" \/ name = "Authorization".
Proof.
  intros Hr. destruct (only_call rt request net Hr) as (call & Ht).
  exists call. split; [exact Ht|].
  apply (call_shape rt request net call (net [] call)).
  rewrite Ht. now left.
Qed.

(** X6: of the inbound request a handler uses the [Authorization] header
    and, on POST delete-member, the body; nothing else.  Two requests that
    agree on these get the same response, send the same call and leave the
    same log. *)
Theorem X6_only_authorization_and_body_matter rt request request' net :
  Headers_get (req_headers request) "Authorization"
    = Headers_get (req_headers request') "Authorization" ->
  (rt = DeleteMember_POST -> req_body request = req_body request') ->
  serve rt request net = serve rt request' net.
Proof.
  intros Hget Hbody. destruct rt; expose.
  - now rewrite Hget, (Hbody eq_refl).
  - now rewrite Hget.
  - reflexivity.
Qed.

(** X7: the log of an invocation is empty or holds the one entry of the
    [catch], under the label of the route, and then the response is the
    generic 500.  The entry keeps what the response leaves out: after a
    failed transport it is the [TypeError] of [fetch] with the transport's
    error as its cause.  A reply with a JSON body that is relayed (status
    from 200 to 599, other than 304) leaves no entry. *)
Theorem X7_one_log_entry_per_caught_exception rt request net :
  (logged rt request net = []
   \/ exists e, logged rt request net = [(diagnostic rt, e)]
                /\ response_of rt request net = Normal internal_server_error)
  /\ (forall cause,
        reaches_fetch rt request = true ->
        (forall call, net [] call = NetworkError cause) ->
        logged rt request net = [(diagnostic rt, TypeError (Some cause))])
  /\ (forall r data,
        reaches_fetch rt request = true ->
        (forall call, net [] call = Responds r) ->
        res_body r = JsonText data ->
        200 <= res_status r <= 599 -> res_status r <> 304 ->
        logged rt request net = []).
Proof.
  split; [|split].
  - destruct rt; run;
      first [ left; reflexivity | right; eexists; split; reflexivity ].
  - intros cause Hr Hnet.
    destruct (only_call rt request net Hr) as (call & Ht).
    rewrite Hnet in Ht. revert Ht.
    destruct rt; run; intros Ht; simplify_eq; reflexivity.
  - intros r data Hr Hnet Hb Hs Hn.
    destruct (answered rt request net r Hr Hnet) as (call & Ht).
    assert (Hin : In (call, Responds r) (traffic rt request net))
      by (rewrite Ht; now left).
    unfold logged.
    destruct (Z_le_gt_dec (res_status r) 299) as [Hok | Hko].
    + now rewrite (relay_success _ _ _ _ _ _ Hin Hb (conj (proj1 Hs) Hok)).
    + rewrite (relay_failure _ _ _ _ _ _ Hin Hb); [reflexivity | lia | exact Hn].
Qed.

(** X8: on GET users/[email], different [email] parameters never give the
    same target URL: the calls of two invocations go to the same URL only
    when the parameters are equal. *)
Theorem X8_distinct_emails_distinct_urls params params' request request'
    net net' call out call' out' :
  In (call, out) (traffic (UsersEmail_GET params) request net) ->
  In (call', out') (traffic (UsersEmail_GET params') request' net') ->
  url call = url call' ->
  email params = email params'.
Proof.
  intros Hin Hin' Hurl.
  rewrite (call_url _ _ _ _ _ Hin), (call_url _ _ _ _ _ Hin') in Hurl.
  cbn [resource_path] in Hurl.
  apply String.app_inj in Hurl. apply String.app_inj in Hurl.
  now apply encodeURIComponent_inj.
Qed.

End Proxy.

(** ** The properties at work *)

Lemma C1_witness :
  Headers_get (req_headers anonymous) "Authorization" = None
  /\ serve localhost DeleteMember_POST anonymous (replies (Responds created))
      = (Normal missing_authorization, empty_world)
  /\ serve localhost UsersMe_GET anonymous (replies (Responds created))
      = (Normal missing_authorization, empty_world).
Proof.
  split; [reflexivity|].
  exact (C1_missing_authorization_rejected localhost anonymous
           (replies (Responds created)) eq_refl).
Defined.

(** GET [/api/v1/users/unknown@example.com], the backend answers
    [404 { "error": "not found" }]. *)
Lemma C2_witness :
  response_of localhost unknown_user anonymous (replies (Responds not_found))
    = Normal {| status := 404; payload := JObject [("error", JString "not found")] |}
  /\ response_of localhost unknown_user anonymous (replies (Responds beyond_range))
      = Normal internal_server_error.
Proof.
  split.
  - apply (proj1 (C2_backend_error_passthrough localhost unknown_user anonymous
                    (replies (Responds not_found)) not_found
                    (error_body "not found")
                    eq_refl (fun _ => eq_refl) eq_refl)).
    + split; discriminate.
    + discriminate.
  - apply (proj2 (C2_backend_error_passthrough localhost unknown_user anonymous
                    (replies (Responds beyond_range)) beyond_range
                    (error_body "not found")
                    eq_refl (fun _ => eq_refl) eq_refl)).
    right. reflexivity.
Defined.

(** The claim as worded fails where the backend's status is one
    [NextResponse.json] refuses: the status 600 comes back as the generic
    500. *)
Lemma C2_counterexample :
  ~ passes_through localhost unknown_user anonymous
      (replies (Responds beyond_range)).
Proof.
  intros H.
  specialize (H _ beyond_range (error_body "not found")
                (or_introl eq_refl) (or_intror eq_refl) eq_refl).
  vm_compute in H. discriminate H.
Qed.

Lemma C3_witness :
  exists call,
    traffic localhost UsersMe_GET bearer (replies (Responds created))
      = [(call, Responds created)]
    /\ headers (init call) !! "Authorization" = Some "Bearer token-123".
Proof.
  eexists. split; [reflexivity|].
  eapply (C3_authorization_forwarded_where_required localhost UsersMe_GET
            bearer (replies (Responds created))).
  left. reflexivity.
Defined.

(** The claim as worded fails on GET users/[email]: the inbound request
    carries [Authorization: Bearer token-123], the call sent out does not. *)
Lemma C3_counterexample :
  ~ forwards_authorization localhost unknown_user bearer
      (replies (Responds not_found)).
Proof.
  intros H.
  specialize (H "Bearer token-123" eq_refl _ _ (or_introl eq_refl)).
  vm_compute in H. discriminate H.
Qed.

Lemma C4_witness :
  response_of localhost DeleteMember_POST bearer
    (replies (NetworkError "connect ECONNREFUSED 127.0.0.1:8000"))
    = Normal internal_server_error.
Proof.
  eapply (proj1 (proj2 (proj2
            (C4_exception_gives_generic_500 localhost DeleteMember_POST bearer
               (replies (NetworkError "connect ECONNREFUSED 127.0.0.1:8000")))))).
  left. reflexivity.
Defined.

(** POST [/api/v1/members/delete-member] with an authorization header and
    the body [{ "memberId": "123" }]; the backend answers 201. *)
Lemma C5_witness :
  response_of localhost DeleteMember_POST bearer (replies (Responds created))
    = Normal {| status := 200; payload := JObject [("success", JBool true)] |}.
Proof.
  apply (C5_success_relayed_as_200 localhost DeleteMember_POST bearer
           (replies (Responds created)) created).
  - reflexivity.
  - intros call. reflexivity.
  - split; discriminate.
  - reflexivity.
Defined.

Lemma C6_witness :
  response_of localhost UsersMe_GET bearer (replies (Responds bad_gateway))
    = Normal internal_server_error.
Proof.
  apply (C6_unparsable_backend_body_gives_500 localhost UsersMe_GET bearer
           (replies (Responds bad_gateway)) bad_gateway
           "Unexpected token < in JSON at position 0").
  - reflexivity.
  - intros call. reflexivity.
  - reflexivity.
Defined.

Lemma C7_witness :
  exists call r,
    traffic localhost unknown_user anonymous (replies (Responds not_authenticated))
      = [(call, Responds r)]
    /\ res_status r = 401
    /\ res_body r = JsonText (JObject [("detail", JString "Not authenticated")]).
Proof.
  exact (proj2 (proj2 (proj2
           (C7_users_email_needs_no_authorization localhost
              {| email := "unknown@example.com" |} anonymous
              (replies (Responds not_authenticated)))))
           {| status := 401;
              payload := JObject [("detail", JString "Not authenticated")] |}
           eq_refl eq_refl).
Defined.

Lemma C8_witness :
  reaches_fetch UsersMe_GET bearer = true
  /\ length (traffic localhost UsersMe_GET bearer (replies (NetworkError "timeout")))
      = 1%nat.
Proof.
  split; [reflexivity|].
  apply (proj1 (proj2 (C8_at_most_one_call localhost UsersMe_GET bearer
                         (replies (NetworkError "timeout"))))).
  reflexivity.
Defined.

(** The claim as worded fails where the handler stops at its guard: GET
    users/me without an [Authorization] header sends nothing. *)
Lemma C8_counterexample :
  ~ exactly_one_call localhost UsersMe_GET anonymous (replies (Responds created)).
Proof. unfold exactly_one_call. vm_compute. discriminate. Qed.

Lemma C9_witness :
  exists call,
    traffic localhost unknown_user anonymous (replies (Responds not_found))
      = [(call, Responds not_found)]
    /\ url call = "http://localhost:8000/api/v1/users/unknown%40example.com".
Proof.
  exact (proj1 (C9_target_url localhost unknown_user anonymous
                  (replies (Responds not_found)) eq_refl)).
Defined.

Lemma C10_witness :
  serve localhost DeleteMember_POST anonymous (replies (Responds created))
    = (Normal missing_authorization, empty_world)
  /\ response_of localhost DeleteMember_POST
       (request_of [("Authorization", "Bearer token-123")] (NotJson "Unexpected token m in JSON at position 2"))
       (replies (Responds created))
     = Normal internal_server_error
  /\ traffic localhost DeleteMember_POST
       (request_of [("Authorization", "Bearer token-123")] (NotJson "Unexpected token m in JSON at position 2"))
       (replies (Responds created)) = [].
Proof.
  split.
  - apply (proj1 (C10_authorization_checked_before_body localhost
                    (req_headers anonymous) (NotJson "")
                    (replies (Responds created)))).
    reflexivity.
  - apply (proj2 (C10_authorization_checked_before_body localhost
                    (req_headers (request_of [("Authorization", "Bearer token-123")]
                                             (NotJson "Unexpected token m in JSON at position 2")))
                    (NotJson "Unexpected token m in JSON at position 2")
                    (replies (Responds created)))
             "Bearer token-123" "Unexpected token m in JSON at position 2");
      [reflexivity | discriminate | reflexivity].
Defined.

(** ** The further properties at work *)

Lemma X3_witness :
  exists response,
    response_of localhost DeleteMember_POST bearer (replies (Responds created))
      = Normal response
    /\ status response = 200.
Proof.
  eexists. split; [reflexivity|].
  apply (X3_only_200_among_2xx localhost DeleteMember_POST bearer
           (replies (Responds created))).
  - reflexivity.
  - cbn. lia.
Defined.

Lemma X4_witness :
  Headers_get (req_headers blank_authorization) "Authorization" = Some ""
  /\ serve localhost UsersMe_GET blank_authorization (replies (Responds created))
      = (Normal missing_authorization, empty_world).
Proof.
  split; [reflexivity|].
  apply (proj2 (X4_guard_is_exact localhost UsersMe_GET blank_authorization
                  (replies (Responds created)) (or_intror eq_refl))).
  right. reflexivity.
Defined.

Lemma X5_witness :
  reaches_fetch DeleteMember_POST bearer = true
  /\ exists call,
       traffic localhost DeleteMember_POST bearer (replies (Responds created))
         = [(call, Responds created)]
       /\ method (init call) = "POST"
       /\ headers (init call) !! "Accept" = Some "application/json"
       /\ headers (init call) !! "Content-Type" = Some "application/json"
       /\ (exists data,
             req_body bearer = JsonText data
             /\ body (init call) = Some (JSON_stringify data))
       /\ forall name,
            is_Some (headers (init call) !! name) ->
            name = "Accept" \/ name = "Content-Type" \/ name = "Authorization".
Proof.
  split; [reflexivity|].
  exact (X5_shape_of_the_call localhost DeleteMember_POST bearer
           (replies (Responds created)) eq_refl).
Defined.

Lemma X6_witness :
  serve localhost DeleteMember_POST bearer_with_cookie (replies (Responds created))
    = serve localhost DeleteMember_POST bearer (replies (Responds created)).
Proof.
  apply X6_only_authorization_and_body_matter.
  - reflexivity.
  - intros _. reflexivity.
Defined.

Lemma X7_witness :
  logged localhost UsersMe_GET bearer (replies (NetworkError "socket hang up"))
    = [("Error fetching current user:", TypeError (Some "socket hang up"))].
Proof.
  apply (proj1 (proj2 (X7_one_log_entry_per_caught_exception localhost
                         UsersMe_GET bearer
                         (replies (NetworkError "socket hang up"))))).
  - reflexivity.
  - intros call. reflexivity.
Defined.

Lemma X8_witness :
  email {| email := "unknown@example.com" |}
    = email {| email := "unknown@example.com" |}.
Proof.
  eapply (X8_distinct_emails_distinct_urls localhost
            {| email := "unknown@example.com" |}
            {| email := "unknown@example.com" |}
            anonymous bearer
            (replies (Responds not_found)) (replies (NetworkError "timeout"))).
  - left. reflexivity.
  - left. reflexivity.
  - reflexivity.
Defined.
